(** * ActivePlan: the plan popover of the web client

    A shallow embedding of
    [web/client/src/library/components/ide/ActivePlan.tsx]:
    the status colour of the trigger ([getTriggerBgColor]), the view the
    component renders ([ActivePlan]) and the cancellation handler
    ([cancel]) with the promise chain it leaves behind.

    The plan store, the enumerations and the collaborating components
    ([Popover], [TasksOverview], [Button]) live in other files of the
    client; what this file needs of them is declared in the first part. *)

From Stdlib Require Import ZArith DecimalString.
From stdpp Require Import base decidable option list strings relations.

Local Open Scope string_scope.
Local Open Scope list_scope.

(** JavaScript's strict equality on the enumerations below. *)
Notation "a === b" := (bool_decide (a = b)) (at level 70, no associativity).
Notation "a !== b" := (negb (bool_decide (a = b))) (at level 70, no associativity).

(** ** Enumerations of [~/context/plan] and [~/types/enum] *)

(** Modelled from the spec: the declaration of [EnumPlanState] is in
    [~/context/plan].  The component names [Applying], [Cancelling],
    [Cancelled], [Finished] and [Failed]; the spec adds [Idle].  [Other]
    stands for any run-time value outside the enumeration. *)
Module EnumPlanState.
Inductive t : Set :=
| Idle
| Applying
| Cancelling
| Cancelled
| Finished
| Failed
| Other (raw : string).

#[global] Instance PlanState_eq_dec : EqDecision t.
Proof. solve_decision. Defined.
End EnumPlanState.
Abbreviation PlanState := EnumPlanState.t.

(** Modelled from the spec: [EnumPlanAction] is declared in
    [~/context/plan]; the component writes [Cancelling] and [None].
    [Other] stands for the actions other parts of the client write. *)
Module EnumPlanAction.
Inductive t : Set :=
| None
| Cancelling
| Other (raw : string).

#[global] Instance PlanAction_eq_dec : EqDecision t.
Proof. solve_decision. Defined.
End EnumPlanAction.
Abbreviation PlanAction := EnumPlanAction.t.

(** Modelled from the spec: [EnumPlanApplyType] is declared in
    [~/context/plan] with the two kinds of update. *)
Module EnumPlanApplyType.
Inductive t : Set :=
| Virtual
| Backfill.

#[global] Instance PlanApplyType_eq_dec : EqDecision t.
Proof. solve_decision. Defined.
End EnumPlanApplyType.
Abbreviation PlanApplyType := EnumPlanApplyType.t.

(** The members of [~/types/enum] the Cancel button is given. *)
Module EnumSize.
Inductive t : Set := sm.
End EnumSize.

Module EnumVariant.
Inductive t : Set := Danger.
End EnumVariant.

(** ** Status indicator *)

Definition getTriggerBgColor (planState : PlanState) : string :=
  if planState === EnumPlanState.Finished then "bg-success-500 text-light"
  else if planState === EnumPlanState.Failed then "bg-danger-500 text-light"
  else if planState === EnumPlanState.Applying then "bg-secondary-500 text-light"
  else "bg-neutral-100 text-neutral-500".


(** ** The plan store *)

(** Modelled from the spec: the plan store behind [useStorePlan] is
    declared in [~/context/plan]: shared mutable state holding [state] and
    [action], with the setters [setState] and [setAction]. *)
Record Store : Set := mkStore {
  state : PlanState;
  action : PlanAction
}.

(** ** Exceptions, completions and settlements *)

Inductive JsError : Set :=
| TypeError (message : string)
| ApiError (message : string).

(** How a JavaScript call completes. *)
Inductive Completion (A : Type) : Type :=
| Normal (value : A)
| Throw (e : JsError).
Arguments Normal {A} value.
Arguments Throw {A} e.

#[global] Instance Completion_ret : MRet Completion := fun A a => Normal a.
#[global] Instance Completion_bind : MBind Completion := fun A B k m =>
  match m with
  | Normal a => k a
  | Throw e => Throw e
  end.

(** How a promise settles. *)
Inductive Settlement (A : Type) : Type :=
| Fulfilled (value : A)
| Rejected (reason : JsError).
Arguments Fulfilled {A} value.
Arguments Rejected {A} reason.

(** ** What the handlers act on *)

(** The observable effects, oldest first. *)
Inductive Event : Set :=
| StoreSet (now : Store)
| Request
| ConsoleError (e : JsError).

Record World : Set := mkWorld {
  store : Store;
  events : list Event
}.

(** A call that reads and writes the world and may throw. *)
Definition Eff (A : Type) : Type := World -> Completion A * World.

Definition eff_ret {A} (a : A) : Eff A := fun w => (Normal a, w).

Definition eff_bind {A B} (m : Eff A) (k : A -> Eff B) : Eff B := fun w =>
  match m w with
  | (Normal a, w') => k a w'
  | (Throw e, w') => (Throw e, w')
  end.

Declare Scope eff_scope.
Delimit Scope eff_scope with eff.
Bind Scope eff_scope with Eff.
Notation "x <- m ;; k" := (eff_bind m (fun x => k))
  (at level 100, m at next level, right associativity) : eff_scope.
Notation "m ;; k" := (eff_bind m (fun _ => k))
  (at level 100, right associativity) : eff_scope.

Definition emit (ev : Event) : Eff unit := fun w =>
  (Normal tt, {| store := store w; events := events w ++ [ev] |}).

(** Modelled from the spec: [s.setState] and [s.setAction] of the plan
    store, each writing its own field and leaving the other.  The store
    hands every new value to its subscribers as soon as it is written. *)
Definition setPlanState (s : PlanState) : Eff unit := fun w =>
  let now := {| state := s; action := action (store w) |} in
  (Normal tt, {| store := now; events := events w ++ [StoreSet now] |}).

Definition setPlanAction (a : PlanAction) : Eff unit := fun w =>
  let now := {| state := state (store w); action := a |} in
  (Normal tt, {| store := now; events := events w ++ [StoreSet now] |}).

(** [console.error]: writes its argument to the console and returns. *)
Definition console_error (e : JsError) : Eff unit := emit (ConsoleError e).

(** ** Promises

    A promise that hangs on the cancellation request is given by what
    happens when the request settles: the handlers that run, and how the
    promise itself settles. *)
Definition Promise (A : Type) : Type :=
  Settlement unit -> World -> Settlement A * World.

(** [p.catch(onRejected)]: a fulfilment passes through; a rejection is
    handed to [onRejected], whose return value fulfils the new promise
    and whose exception rejects it. *)
Definition catch {A B} (p : Promise A) (onRejected : JsError -> Eff B)
  : Promise (A + B) := fun o w =>
  match p o w with
  | (Fulfilled v, w1) => (Fulfilled (inl v), w1)
  | (Rejected e, w1) =>
      match onRejected e w1 with
      | (Normal b, w2) => (Fulfilled (inr b), w2)
      | (Throw e', w2) => (Rejected e', w2)
      end
  end.

(** [p.finally(onFinally)]: [onFinally] runs however [p] settles; the new
    promise settles as [p] did unless [onFinally] throws. *)
Definition finally {A} (p : Promise A) (onFinally : Eff unit)
  : Promise A := fun o w =>
  match p o w with
  | (s, w1) =>
      match onFinally w1 with
      | (Normal _, w2) => (s, w2)
      | (Throw e, w2) => (Rejected e, w2)
      end
  end.

(** Modelled from the spec: [apiCancelPlanApply] is declared in [~/api]:
    a network request to cancel the plan being applied, no argument
    beyond the query client, a promise without payload that resolves or
    rejects. *)
Inductive QueryClient : Set := client.

Definition apiCancelPlanApply (_ : QueryClient) : Eff (Promise unit) := fun w =>
  (Normal (fun o w' => (o, w')),
   {| store := store w; events := events w ++ [Request] |}).

(** ** The cancel controller (lines 32 to 42)

    The source drops the promise the chain ends in; the runtime keeps it
    until the request settles.  The model returns it, for the event loop
    below to hold. *)
Definition cancel : Eff (Promise (unit + unit)) :=
  (setPlanState EnumPlanState.Cancelling ;;
   setPlanAction EnumPlanAction.Cancelling ;;
   request <- apiCancelPlanApply client ;;
   eff_ret
     (finally
        (catch request console_error)
        (setPlanAction EnumPlanAction.None ;;
         setPlanState EnumPlanState.Cancelled)))%eff.

(** ** The event loop

    Handlers run to completion one after the other.  [inflight] holds the
    chains of the requests that have not settled; [uncaught] collects the
    exceptions that leave a handler and the rejections that reach the end
    of a chain with nobody to take them. *)
Record Runtime : Type := mkRuntime {
  world : World;
  inflight : list (Promise (unit + unit));
  uncaught : list JsError
}.

Definition boot (s : Store) : Runtime :=
  {| world := {| store := s; events := [] |}; inflight := []; uncaught := [] |}.

(** Run an event handler that may start a request. *)
Definition run_handler (h : Eff (Promise (unit + unit))) (rt : Runtime)
  : Runtime :=
  match h (world rt) with
  | (Normal chain, w) =>
      {| world := w; inflight := inflight rt ++ [chain];
         uncaught := uncaught rt |}
  | (Throw e, w) =>
      {| world := w; inflight := inflight rt; uncaught := uncaught rt ++ [e] |}
  end.

(** [cancel()] is called. *)
Definition invoke (rt : Runtime) : Runtime := run_handler cancel rt.

(** The [i]-th request in flight settles with outcome [o]. *)
Definition settle (i : nat) (o : Settlement unit) (rt : Runtime) : Runtime :=
  match inflight rt !! i with
  | Some chain =>
      match chain o (world rt) with
      | (Fulfilled _, w) =>
          {| world := w; inflight := delete i (inflight rt);
             uncaught := uncaught rt |}
      | (Rejected e, w) =>
          {| world := w; inflight := delete i (inflight rt);
             uncaught := uncaught rt ++ [e] |}
      end
  | None => rt
  end.

(** The transitions of the component. *)
Inductive step : Runtime -> Runtime -> Prop :=
| step_invoke rt :
    step rt (invoke rt)
| step_settle rt i o :
    i < length (inflight rt) ->
    step rt (settle i o rt).

(** The number of requests sent so far. *)
Definition requests (w : World) : nat :=
  length
    (omap (fun ev => match ev with Request => Some tt | _ => None end)
          (events w)).

(** What the console shows. *)
Definition console (w : World) : list JsError :=
  omap (fun ev => match ev with ConsoleError e => Some e | _ => None end)
       (events w).

(** The store values published so far. *)
Definition published (w : World) : list Store :=
  omap (fun ev => match ev with StoreSet s => Some s | _ => None end)
       (events w).

(** No action [Cancelling] without the state [Cancelling]. *)
Definition in_step (s : Store) : Prop :=
  action s = EnumPlanAction.Cancelling -> state s = EnumPlanState.Cancelling.

(** ** Display composition *)

(** A value that may be [null] or [undefined]. *)
Inductive Nullable (A : Type) : Type :=
| null
| undefined
| present (a : A).
Arguments null {A}.
Arguments undefined {A}.
Arguments present {A} a.

(** [x == null] *)
Definition is_nullish {A} (x : Nullable A) : bool :=
  match x with
  | null | undefined => true
  | present _ => false
  end.

(** [obj.name]: reading a property of [null] or [undefined] throws. *)
Definition get {A B} (obj : Nullable A) (name : string) (field : A -> B)
  : Completion B :=
  match obj with
  | present a => Normal (field a)
  | null =>
      Throw (TypeError ("Cannot read properties of null (reading '" ++ name ++ "')"))
  | undefined =>
      Throw (TypeError ("Cannot read properties of undefined (reading '" ++ name ++ "')"))
  end.

(** [clsx]: the class names that are not empty, separated by a space. *)
Definition clsx (classes : list string) : string :=
  String.concat " " (filter (fun c => c <> "") classes).

(** The environment [useStoreContext] hands out. *)
Record Environment : Set := mkEnvironment {
  name : string
}.

(** A DOM event on its way through the tree.  [stoppedAfter] places the
    call that stopped it among the effects of the page: how many of them
    there had been when it was called. *)
Record MouseEvent : Set := mkMouseEvent {
  defaultPrevented : bool;
  propagationStopped : bool;
  stoppedAfter : option nat
}.

(** The event a click of the user starts out as. *)
Definition fresh_click : MouseEvent :=
  {| defaultPrevented := false; propagationStopped := false;
     stoppedAfter := None |}.

(** [e.stopPropagation()]: sets the flag of the event it is called on and
    leaves the rest of the event, and the page, as they are; a second
    call changes nothing. *)
Definition stopPropagation (e : MouseEvent) : Eff MouseEvent := fun w =>
  (Normal
     {| defaultPrevented := defaultPrevented e;
        propagationStopped := true;
        stoppedAfter :=
          if propagationStopped e then stoppedAfter e
          else Some (length (events w)) |},
   w).

(** The props of the themed [Button]. *)
Record ButtonElement : Type := mkButton {
  button_size : EnumSize.t;
  button_variant : EnumVariant.t;
  button_className : string;
  button_onClick : MouseEvent -> Eff (MouseEvent * Promise (unit + unit));
  button_children : string
}.

(** Lines 95 to 108: [false] renders nothing. *)
Definition cancelTrigger (planState : PlanState) : option ButtonElement :=
  if planState === EnumPlanState.Applying then
    Some {| button_size := EnumSize.sm;
            button_variant := EnumVariant.Danger;
            button_className := "mx-0";
            button_onClick := fun e =>
              (e' <- stopPropagation e ;;
               chain <- cancel ;;
               eff_ret (e', chain))%eff;
            button_children := "Cancel" |}
  else None.

(** A click on the rendered button. *)
Definition click (b : ButtonElement) (rt : Runtime) : Runtime :=
  run_handler
    (r <- button_onClick b fresh_click ;;
     eff_ret (snd r))%eff
    rt.

Section Display.

(** The tasks of a plan and the per-model breakdown belong to
    [TasksOverview]; the component passes them on untouched. *)
Variables Task Models : Type.

(** Modelled from the spec: [PlanProgress] is declared in
    [~/context/plan]: the kind of update, the time of the last update and
    the tasks, in order. *)
Record PlanProgress : Type := mkPlanProgress {
  type : PlanApplyType;
  updated_at : string;
  tasks : list Task
}.

(** What [TasksOverview] hands to its render prop. *)
Record Overview : Type := mkOverview {
  total : Z;
  completed : Z;
  models : Models
}.

Record SummaryProps : Type := mkSummary {
  summary_environment : string;
  summary_planState : PlanState;
  summary_headline : string;
  summary_completed : Z;
  summary_total : Z;
  summary_updateType : string;
  summary_updatedAt : string
}.

Record DetailsProps : Type := mkDetails {
  details_models : Models;
  showBatches : bool;
  showVirtualUpdate : bool;
  showProgress : bool
}.

Record TasksOverviewElement : Type := mkTasksOverview {
  overview_tasks : list Task;
  overview_children : Overview -> Completion (SummaryProps * DetailsProps)
}.

(** What the render prop of the popover returns. *)
Record View : Type := mkView {
  trigger_className : string;
  trigger_label : Z;
  panel_overview : TasksOverviewElement;
  panel_cancel : option ButtonElement
}.

Record PopoverElement : Type := mkPopover {
  popover_className : string;
  popover_children : unit -> Completion View
}.

(** Line 54. *)
Definition triggerLabel (plan : Nullable PlanProgress) : Z :=
  if is_nullish plan then 0%Z else 1%Z.

(** Lines 68 to 92: the render prop given to [TasksOverview]. *)
Definition overviewChildren (plan : Nullable PlanProgress)
    (environment : Environment) (planState : PlanState) (o : Overview)
  : Completion (SummaryProps * DetailsProps) :=
  type1 ← get plan "type" type;
  updatedAt ← get plan "updated_at" updated_at;
  type2 ← get plan "type" type;
  type3 ← get plan "type" type;
  mret
    ({| summary_environment := name environment;
        summary_planState := planState;
        summary_headline := "Most Recent Plan";
        summary_completed := completed o;
        summary_total := total o;
        summary_updateType :=
          if type1 === EnumPlanApplyType.Virtual then "Virtual" else "Backfill";
        summary_updatedAt := updatedAt |},
     {| details_models := models o;
        showBatches := type2 !== EnumPlanApplyType.Virtual;
        showVirtualUpdate := type3 === EnumPlanApplyType.Virtual;
        showProgress := true |}).

(** The component: [environment] and the store [s] are what the hooks
    read; the result is the [Popover] element with its render prop. *)
Definition ActivePlan (plan : Nullable PlanProgress)
    (environment : Environment) (s : Store) : PopoverElement :=
  let planState := state s in
  {| popover_className := "relative flex";
     popover_children := fun _ =>
       let className :=
         clsx ["inline-block ml-1 px-2 py-[3px] rounded-[4px] text-xs font-bold";
               getTriggerBgColor planState] in
       let label := triggerLabel plan in
       planTasks ← get plan "tasks" tasks;
       mret {| trigger_className := className;
               trigger_label := label;
               panel_overview :=
                 {| overview_tasks := planTasks;
                    overview_children :=
                      overviewChildren plan environment planState |};
               panel_cancel := cancelTrigger planState |} |}.

(** [Popover] of [@headlessui/react] calls its render prop each time it
    renders, whether the panel is open or closed.  The [Transition] and
    [Popover.Panel] around the panel carry fixed class names only. *)
Definition Popover (el : PopoverElement) : Completion View :=
  popover_children el tt.

(** Rendering the component down to the view. *)
Definition render (plan : Nullable PlanProgress)
    (environment : Environment) (s : Store) : Completion View :=
  Popover (ActivePlan plan environment s).

End Display.

Arguments mkPlanProgress {Task} type updated_at tasks.
Arguments type {Task} p.
Arguments updated_at {Task} p.
Arguments tasks {Task} p.
Arguments mkOverview {Models} total completed models.
Arguments total {Models} o.
Arguments completed {Models} o.
Arguments models {Models} o.
Arguments details_models {Models} d.
Arguments showBatches {Models} d.
Arguments showVirtualUpdate {Models} d.
Arguments showProgress {Models} d.
Arguments overview_tasks {Task Models} t.
Arguments overview_children {Task Models} t o.
Arguments trigger_className {Task Models} v.
Arguments trigger_label {Task Models} v.
Arguments panel_overview {Task Models} v.
Arguments panel_cancel {Task Models} v.
Arguments popover_className {Task Models} p.
Arguments popover_children {Task Models} p _.
Arguments triggerLabel {Task} plan.
Arguments overviewChildren {Task Models} plan environment planState o.
Arguments ActivePlan {Task} Models plan environment s.
Arguments Popover {Task Models} el.
Arguments render {Task} Models plan environment s.

(** Another part of the client writes the plan store. *)
Definition overwrite (s : Store) (rt : Runtime) : Runtime :=
  {| world := {| store := s; events := events (world rt) |};
     inflight := inflight rt;
     uncaught := uncaught rt |}.

(** What happens between the moment the page is set up and now: calls of
    [cancel], settlements of requests in flight, and writes to the store
    from elsewhere. *)
Inductive run : Runtime -> Runtime -> Prop :=
| run_step rt rt' :
    step rt rt' -> run rt rt'
| run_other rt s :
    run rt (overwrite s rt).

(** The world [cancel] leaves behind. *)
Definition started (w : World) : World :=
  {| store := {| state := EnumPlanState.Cancelling;
                 action := EnumPlanAction.Cancelling |};
     events := events w ++
       [StoreSet {| state := EnumPlanState.Cancelling;
                    action := action (store w) |};
        StoreSet {| state := EnumPlanState.Cancelling;
                    action := EnumPlanAction.Cancelling |};
        Request] |}.

(** The world a chain of [cancel] leaves behind when its request settles
    with [o] in [w]. *)
Definition logged (o : Settlement unit) : list Event :=
  match o with
  | Fulfilled _ => []
  | Rejected e => [ConsoleError e]
  end.

Definition settled (o : Settlement unit) (w : World) : World :=
  {| store := {| state := EnumPlanState.Cancelled;
                 action := EnumPlanAction.None |};
     events := events w ++ logged o ++
       [StoreSet {| state := state (store w);
                    action := EnumPlanAction.None |};
        StoreSet {| state := EnumPlanState.Cancelled;
                    action := EnumPlanAction.None |}] |}.

Definition cancel_chain (c : Promise (unit + unit)) : Prop :=
  forall o w, exists v, c o w = (Fulfilled v, settled o w).

(** Every chain in flight was hung there by [cancel], and nothing has
    escaped a handler. *)
Definition sound (rt : Runtime) : Prop :=
  Forall cancel_chain (inflight rt) /\ uncaught rt = [].

(** React shows a number child as its decimal text. *)
Definition textOf (n : Z) : string :=
  NilZero.string_of_int (Z.to_int n).

(** A session: the plan is being applied, the user cancels, the server
    reports the plan finished before the cancellation request comes
    back. *)
Definition applying : Store :=
  {| state := EnumPlanState.Applying; action := EnumPlanAction.None |}.

Definition cancelled_once : Runtime := invoke (boot applying).

Definition finished_meanwhile : Runtime :=
  overwrite {| state := EnumPlanState.Finished;
               action := EnumPlanAction.Cancelling |} cancelled_once.

Definition gateway_timeout : JsError := ApiError "504 Gateway Timeout".

(** * Properties *)

(** ** The cancel controller, step by step *)

Lemma cancel_started (w : World) :
  exists c, cancel w = (Normal c, started w) /\ cancel_chain c.
Proof.
  eexists. split.
  - unfold cancel, eff_bind, setPlanState, setPlanAction, apiCancelPlanApply,
      eff_ret, started. cbn. rewrite <- !app_assoc. reflexivity.
  - intros o w'.
    unfold finally, catch, eff_bind, setPlanState, setPlanAction, console_error,
      emit, settled, logged.
    destruct o as [[]|e]; cbn; eexists; rewrite <- !app_assoc; reflexivity.
Qed.

Lemma invoke_started (rt : Runtime) :
  exists c, cancel_chain c /\
    invoke rt = {| world := started (world rt);
                   inflight := inflight rt ++ [c];
                   uncaught := uncaught rt |}.
Proof.
  destruct (cancel_started (world rt)) as (c & Hc & Hchain).
  exists c. split; [exact Hchain|].
  unfold invoke, run_handler. rewrite Hc. reflexivity.
Qed.

(** Replace [invoke rt] by the runtime it computes. *)
Ltac started rt :=
  let c := fresh "c" in
  let Hc := fresh "Hc" in
  destruct (invoke_started rt) as (c & Hc & ->).

Lemma settle_settled (rt : Runtime) (i : nat) (o : Settlement unit) :
  Forall cancel_chain (inflight rt) ->
  i < length (inflight rt) ->
  settle i o rt = {| world := settled o (world rt);
                     inflight := delete i (inflight rt);
                     uncaught := uncaught rt |}.
Proof.
  intros Hall Hi.
  destruct (lookup_lt_is_Some_2 _ _ Hi) as [c Hc].
  destruct (proj1 (Forall_lookup _ _) Hall i c Hc o (world rt)) as [v Hv].
  unfold settle, Promise in *. rewrite Hc, Hv. reflexivity.
Qed.

Lemma sound_boot (s : Store) : sound (boot s).
Proof. split; [constructor | reflexivity]. Qed.

Lemma sound_run (rt rt' : Runtime) : sound rt -> run rt rt' -> sound rt'.
Proof.
  intros Hs Hrun.
  destruct Hrun as [rt rt' Hstep | rt s];
    [destruct Hstep as [rt | rt i o Hi] |]; destruct Hs as [Hall Hun].
  - started rt. split; cbn; [|exact Hun].
    apply Forall_app. split; [exact Hall | repeat constructor; exact Hc].
  - rewrite (settle_settled _ _ _ Hall Hi). split; cbn; [|exact Hun].
    apply Forall_delete, Hall.
  - split; assumption.
Qed.

Lemma sound_reachable (s : Store) (rt : Runtime) :
  rtc run (boot s) rt -> sound rt.
Proof.
  revert rt. apply rtc_ind_r.
  - apply sound_boot.
  - intros y z _ Hyz IH. exact (sound_run y z IH Hyz).
Qed.

Lemma published_app (w : World) (evs : list Event) :
  published {| store := store w; events := events w ++ evs |}
  = published w
    ++ omap (fun ev => match ev with StoreSet s => Some s | _ => None end) evs.
Proof. unfold published. cbn. apply omap_app. Qed.

Lemma published_started (w : World) :
  published (started w)
  = published w
    ++ [ {| state := EnumPlanState.Cancelling; action := action (store w) |};
         {| state := EnumPlanState.Cancelling;
            action := EnumPlanAction.Cancelling |} ].
Proof. unfold started, published. cbn. rewrite omap_app. reflexivity. Qed.

Lemma published_settled (o : Settlement unit) (w : World) :
  published (settled o w)
  = published w
    ++ [ {| state := state (store w); action := EnumPlanAction.None |};
         {| state := EnumPlanState.Cancelled;
            action := EnumPlanAction.None |} ].
Proof.
  unfold settled, published. cbn. rewrite !omap_app.
  destruct o; reflexivity.
Qed.

Lemma in_step_run (rt rt' : Runtime) :
  sound rt -> run rt rt' ->
  Forall in_step (published (world rt)) ->
  Forall in_step (published (world rt')).
Proof.
  intros Hs Hrun.
  destruct Hrun as [rt rt' Hstep | rt s];
    [destruct Hstep as [rt | rt i o Hi] |]; destruct Hs as [Hall _]; intros Hpub.
  - started rt. cbn [world].
    rewrite published_started. apply Forall_app. split; [exact Hpub|].
    repeat constructor; intros _; reflexivity.
  - rewrite (settle_settled _ _ _ Hall Hi). cbn [world].
    rewrite published_settled. apply Forall_app. split; [exact Hpub|].
    repeat constructor; intros H; discriminate H.
  - exact Hpub.
Qed.

Lemma console_settled (o : Settlement unit) (w : World) :
  console (settled o w)
  = console w ++ match o with Fulfilled _ => [] | Rejected e => [e] end.
Proof.
  unfold settled, console. cbn. rewrite !omap_app.
  destruct o; cbn; [rewrite app_nil_r|]; reflexivity.
Qed.

Lemma requests_settled (o : Settlement unit) (w : World) :
  requests (settled o w) = requests w.
Proof.
  unfold settled, requests. cbn. rewrite !omap_app, !length_app.
  destruct o; cbn; lia.
Qed.

Lemma settle_last (rt : Runtime) (o : Settlement unit) :
  world (settle (length (inflight rt)) o (invoke rt))
  = settled o (started (world rt)).
Proof.
  started rt.
  destruct (Hc o (started (world rt))) as [v Hv].
  unfold settle, Promise in *. cbn [inflight world].
  rewrite list_lookup_middle by reflexivity. rewrite Hv. reflexivity.
Qed.

(** ** Status indicator *)

(** C3: [getTriggerBgColor] is a function of the plan state alone, defined
    on every state: the success token for [Finished], the danger token for
    [Failed], the in-progress token for [Applying], these three pairwise
    distinct, and the one neutral token for [Idle], [Cancelling],
    [Cancelled] and every value outside the enumeration; no state other
    than those gets the neutral token. *)
Theorem getTriggerBgColor_mapping :
  getTriggerBgColor EnumPlanState.Finished = "bg-success-500 text-light" /\
  getTriggerBgColor EnumPlanState.Failed = "bg-danger-500 text-light" /\
  getTriggerBgColor EnumPlanState.Applying = "bg-secondary-500 text-light" /\
  NoDup [getTriggerBgColor EnumPlanState.Finished;
         getTriggerBgColor EnumPlanState.Failed;
         getTriggerBgColor EnumPlanState.Applying] /\
  getTriggerBgColor EnumPlanState.Idle = "bg-neutral-100 text-neutral-500" /\
  getTriggerBgColor EnumPlanState.Cancelling = "bg-neutral-100 text-neutral-500" /\
  getTriggerBgColor EnumPlanState.Cancelled = "bg-neutral-100 text-neutral-500" /\
  (forall raw : string,
     getTriggerBgColor (EnumPlanState.Other raw)
     = "bg-neutral-100 text-neutral-500") /\
  (forall s : PlanState,
     getTriggerBgColor s = "bg-neutral-100 text-neutral-500"
     <-> s <> EnumPlanState.Finished /\ s <> EnumPlanState.Failed
         /\ s <> EnumPlanState.Applying).
Proof.
  repeat match goal with |- _ /\ _ => split end; try reflexivity.
  - repeat constructor; rewrite ?list_elem_of_In; cbn; intuition discriminate.
  - intros s. split.
    + intros H. repeat split; intros ->; discriminate H.
    + intros (H1 & H2 & H3). destruct s; try reflexivity; congruence.
Qed.

(** ** Display composition *)

Section DisplayProperties.

Context {Task : Type} (Models : Type).

Lemma render_present (p : PlanProgress Task) (environment : Environment)
    (s : Store) :
  render Models (present p) environment s
  = Normal
      {| trigger_className :=
           clsx ["inline-block ml-1 px-2 py-[3px] rounded-[4px] text-xs font-bold";
                 getTriggerBgColor (state s)];
         trigger_label := 1;
         panel_overview :=
           {| overview_tasks := tasks p;
              overview_children :=
                overviewChildren (present p) environment (state s) |};
         panel_cancel := cancelTrigger (state s) |}.
Proof. reflexivity. Qed.

Lemma render_absent (plan : Nullable (PlanProgress Task))
    (environment : Environment) (s : Store) :
  is_nullish plan = true ->
  exists message, render Models plan environment s = Throw (TypeError message).
Proof.
  destruct plan; intros H; try discriminate H; eexists; reflexivity.
Qed.

Lemma cancelTrigger_applying (planState : PlanState) :
  is_Some (cancelTrigger planState) <-> planState = EnumPlanState.Applying.
Proof.
  unfold cancelTrigger. case_bool_decide as H.
  - split; [intros _; exact H | intros _; eexists; reflexivity].
  - split; [intros [b Hb]; discriminate Hb | intros E; contradiction].
Qed.

(** With a plan present the panel holds what the guard of line 95 gives:
    at [Applying] the small danger button labelled [Cancel] whose click
    is a call of [cancel()], in every other state nothing. *)
Lemma cancel_trigger_of_present_plan (p : PlanProgress Task)
    (environment : Environment) (s : Store) :
  exists v,
    render Models (present p) environment s = Normal v /\
    ((state s = EnumPlanState.Applying /\
      exists b,
        panel_cancel v = Some b /\
        button_children b = "Cancel" /\
        button_size b = EnumSize.sm /\
        button_variant b = EnumVariant.Danger /\
        button_className b = "mx-0" /\
        forall rt, click b rt = invoke rt)
     \/ (state s <> EnumPlanState.Applying /\ panel_cancel v = None)).
Proof.
  eexists. split; [apply render_present|]. cbn [panel_cancel].
  unfold cancelTrigger. case_bool_decide as H; [left | right].
  - split; [exact H|]. eexists. repeat split.
  - split; [exact H | reflexivity].
Qed.

(** C8: for a plan that is present and whatever [TasksOverview] hands to
    the render prop, the details are asked for batches exactly when the
    plan is not virtual and for the virtual update exactly when it is, so
    exactly one of the two is shown; the summary is labelled [Virtual] for
    a virtual plan and [Backfill] otherwise.  The render prop in the
    rendered view is that function. *)
Theorem details_follow_plan_type (p : PlanProgress Task)
    (environment : Environment) (s : Store) (o : Overview Models) :
  exists v summary details,
    render Models (present p) environment s = Normal v /\
    overview_children (panel_overview v) o = Normal (summary, details) /\
    showBatches details = (type p !== EnumPlanApplyType.Virtual) /\
    showVirtualUpdate details = (type p === EnumPlanApplyType.Virtual) /\
    xorb (showBatches details) (showVirtualUpdate details) = true /\
    summary_updateType summary
    = (if type p === EnumPlanApplyType.Virtual then "Virtual" else "Backfill").
Proof.
  do 3 eexists. split; [apply render_present|].
  cbn. repeat split; try reflexivity.
  destruct (type p); reflexivity.
Qed.

(** Whatever the environment and the store: with the plan [null] or
    [undefined] the label expression is [0] and the read of [plan.tasks]
    throws a [TypeError] out of the render prop; with a plan present the
    render succeeds and [TasksOverview] is given the tasks of the plan. *)
Lemma render_needs_plan (environment : Environment) (s : Store) :
  @triggerLabel Task null = 0%Z /\
  @triggerLabel Task undefined = 0%Z /\
  (exists message,
     render (Task := Task) Models null environment s
     = Throw (TypeError message)) /\
  (exists message,
     render (Task := Task) Models undefined environment s
     = Throw (TypeError message)) /\
  (forall p : PlanProgress Task,
     exists v, render Models (present p) environment s = Normal v /\
               overview_tasks (panel_overview v) = tasks p).
Proof.
  split; [reflexivity|]. split; [reflexivity|].
  split; [apply render_absent; reflexivity|].
  split; [apply render_absent; reflexivity|].
  intros p. eexists. split; [apply render_present | reflexivity].
Qed.

(** The label expression of line 54 is [0] for a plan that is [null] or
    [undefined] and [1] for a plan that is present; for every plan that
    is present, whatever its tasks, the component renders and the trigger
    shows ["1"]. *)
Lemma trigger_label_presence_flag :
  @triggerLabel Task null = 0%Z /\
  @triggerLabel Task undefined = 0%Z /\
  textOf 0 = "0" /\
  (forall (kind : PlanApplyType) (updated : string) (ts : list Task)
          (environment : Environment) (s : Store),
     let p := mkPlanProgress kind updated ts in
     triggerLabel (present p) = 1%Z /\
     exists v, render Models (present p) environment s = Normal v /\
               trigger_label v = triggerLabel (present p) /\
               textOf (trigger_label v) = "1").
Proof.
  repeat split. eexists. split; [apply render_present|]. split; reflexivity.
Qed.

End DisplayProperties.




(** ** The cancel controller *)

(** C4: with the store at [Applying], when [cancel()] returns the store
    holds state [Cancelling] and action [Cancelling], and the request it
    sent is still in flight: the two writes and the request are all that
    has happened, nothing of the continuation has run. *)
Theorem cancel_optimistic_update (rt : Runtime) :
  state (store (world rt)) = EnumPlanState.Applying ->
  store (world (invoke rt))
  = {| state := EnumPlanState.Cancelling;
       action := EnumPlanAction.Cancelling |} /\
  (exists c, inflight (invoke rt) = inflight rt ++ [c]) /\
  events (world (invoke rt))
  = events (world rt) ++
      [StoreSet {| state := EnumPlanState.Cancelling;
                   action := action (store (world rt)) |};
       StoreSet {| state := EnumPlanState.Cancelling;
                   action := EnumPlanAction.Cancelling |};
       Request] /\
  uncaught (invoke rt) = uncaught rt.
Proof.
  intros _. started rt.
  repeat split. exists c. reflexivity.
Qed.

(** C1: in whatever way the page got where it is, when a request in flight
    settles, fulfilled or rejected, the store ends with state [Cancelled]
    and action [None]; a rejection leaves the store as a fulfilment
    does. *)
Theorem settlement_final_store (s0 : Store) (rt : Runtime) (i : nat)
    (o : Settlement unit) :
  rtc run (boot s0) rt ->
  i < length (inflight rt) ->
  store (world (settle i o rt))
  = {| state := EnumPlanState.Cancelled; action := EnumPlanAction.None |} /\
  forall e : JsError,
    store (world (settle i (Rejected e) rt))
    = store (world (settle i (Fulfilled tt) rt)).
Proof.
  intros Hrun Hi. destruct (sound_reachable _ _ Hrun) as [Hall _].
  split; [|intros e]; rewrite !(settle_settled _ _ _ Hall Hi); reflexivity.
Qed.

(** C5: when a request in flight is rejected, the reason is written to the
    console; nothing escapes the continuation, nor [cancel()] itself; no
    further request is sent; and every render of the component is what it
    is after a fulfilment, for any plan. *)
Theorem rejection_logged_not_rethrown (s0 : Store) (rt : Runtime) (i : nat)
    (e : JsError) :
  rtc run (boot s0) rt ->
  i < length (inflight rt) ->
  console (world (settle i (Rejected e) rt)) = console (world rt) ++ [e] /\
  uncaught (settle i (Rejected e) rt) = [] /\
  (exists c w, cancel (world rt) = (Normal c, w)) /\
  uncaught (invoke rt) = [] /\
  requests (world (settle i (Rejected e) rt)) = requests (world rt) /\
  length (inflight (settle i (Rejected e) rt)) = length (inflight rt) - 1 /\
  forall (Task Models : Type) (plan : Nullable (PlanProgress Task))
         (environment : Environment),
    render Models plan environment (store (world (settle i (Rejected e) rt)))
    = render Models plan environment
        (store (world (settle i (Fulfilled tt) rt))).
Proof.
  intros Hrun Hi. destruct (sound_reachable _ _ Hrun) as [Hall Hun].
  rewrite !(settle_settled _ _ _ Hall Hi). cbn [world uncaught inflight].
  rewrite console_settled, requests_settled.
  destruct (cancel_started (world rt)) as (c & Hc & _).
  started rt. cbn [uncaught].
  repeat split; try assumption.
  - exists c, (started (world rt)). exact Hc.
  - apply length_delete, lookup_lt_is_Some_2, Hi.
Qed.

(** C7: in whatever way the page got where it is, every value of the
    store the component has published has state [Cancelling] if it has
    action [Cancelling], and so has the store after each further
    transition of the component; [cancel()] writes the state first, then
    the action, then sends the request, in one handler. *)
Theorem action_cancelling_implies_state (s0 : Store) (rt : Runtime) :
  rtc run (boot s0) rt ->
  Forall in_step (published (world rt)) /\
  (forall rt', step rt rt' -> in_step (store (world rt'))) /\
  events (world (invoke rt))
  = events (world rt) ++
      [StoreSet {| state := EnumPlanState.Cancelling;
                   action := action (store (world rt)) |};
       StoreSet {| state := EnumPlanState.Cancelling;
                   action := EnumPlanAction.Cancelling |};
       Request].
Proof.
  intros Hrun. split; [|split].
  - revert rt Hrun. apply rtc_ind_r.
    + constructor.
    + intros y z Hy Hyz IH.
      exact (in_step_run y z (sound_reachable _ _ Hy) Hyz IH).
  - destruct (sound_reachable _ _ Hrun) as [Hall _].
    intros rt' Hstep. destruct Hstep as [rt | rt i o Hi].
    + started rt. intros _. reflexivity.
    + rewrite (settle_settled _ _ _ Hall Hi). intros H. discriminate H.
  - started rt. reflexivity.
Qed.

(** C10: [cancel()] looks at nothing: from any store it writes state
    [Cancelling], then action [Cancelling], sends the request, throws
    nothing, and when that request settles, however it settles, the store
    is left with state [Cancelled] and action [None]; the outcome is the
    same whatever state the store had.  That it runs only from [Applying]
    is the doing of the view: the button is there exactly in that state,
    and a click on it is a call of [cancel()]. *)
Theorem cancel_checks_no_precondition (rt : Runtime) :
  store (world (invoke rt))
  = {| state := EnumPlanState.Cancelling;
       action := EnumPlanAction.Cancelling |} /\
  events (world (invoke rt))
  = events (world rt) ++
      [StoreSet {| state := EnumPlanState.Cancelling;
                   action := action (store (world rt)) |};
       StoreSet {| state := EnumPlanState.Cancelling;
                   action := EnumPlanAction.Cancelling |};
       Request] /\
  (exists c, inflight (invoke rt) = inflight rt ++ [c]) /\
  uncaught (invoke rt) = uncaught rt /\
  (forall o : Settlement unit,
     store (world (settle (length (inflight rt)) o (invoke rt)))
     = {| state := EnumPlanState.Cancelled;
          action := EnumPlanAction.None |}) /\
  (forall s : PlanState,
     invoke (overwrite {| state := s; action := action (store (world rt)) |} rt)
     = invoke rt) /\
  (forall s : PlanState,
     is_Some (cancelTrigger s) <-> s = EnumPlanState.Applying) /\
  (exists b, cancelTrigger EnumPlanState.Applying = Some b /\
             click b rt = invoke rt).
Proof.
  split; [|split; [|split; [|split; [|split; [|split; [|split]]]]]].
  - started rt. reflexivity.
  - started rt. reflexivity.
  - started rt. exists c. reflexivity.
  - started rt. reflexivity.
  - intros o. rewrite settle_last. reflexivity.
  - intros s. reflexivity.
  - apply cancelTrigger_applying.
  - eexists. split; reflexivity.
Qed.

(** ** The session above *)

Example session_after_rejection :
  world (settle 0 (Rejected gateway_timeout) cancelled_once)
  = {| store := {| state := EnumPlanState.Cancelled;
                   action := EnumPlanAction.None |};
       events :=
         [StoreSet {| state := EnumPlanState.Cancelling;
                      action := EnumPlanAction.None |};
          StoreSet {| state := EnumPlanState.Cancelling;
                      action := EnumPlanAction.Cancelling |};
          Request;
          ConsoleError gateway_timeout;
          StoreSet {| state := EnumPlanState.Cancelling;
                      action := EnumPlanAction.None |};
          StoreSet {| state := EnumPlanState.Cancelled;
                      action := EnumPlanAction.None |}] |}.
Proof. reflexivity. Qed.

Lemma run_cancelled_once : rtc run (boot applying) cancelled_once.
Proof. apply rtc_once, run_step, step_invoke. Defined.

Lemma run_finished_meanwhile : rtc run (boot applying) finished_meanwhile.
Proof. eapply rtc_r; [exact run_cancelled_once | apply run_other]. Defined.

Lemma one_in_flight : 0 < length (inflight finished_meanwhile).
Proof. exact (le_n 1). Defined.

Lemma cancel_optimistic_update_witness :
  state (store (world (boot applying))) = EnumPlanState.Applying /\
  store (world (invoke (boot applying)))
  = {| state := EnumPlanState.Cancelling;
       action := EnumPlanAction.Cancelling |}.
Proof.
  split; [reflexivity|].
  exact (proj1 (cancel_optimistic_update (boot applying) eq_refl)).
Defined.

Lemma settlement_final_store_witness :
  rtc run (boot applying) finished_meanwhile /\
  0 < length (inflight finished_meanwhile) /\
  store (world (settle 0 (Rejected gateway_timeout) finished_meanwhile))
  = {| state := EnumPlanState.Cancelled; action := EnumPlanAction.None |}.
Proof.
  split; [exact run_finished_meanwhile|]. split; [exact one_in_flight|].
  exact (proj1 (settlement_final_store applying finished_meanwhile 0
                  (Rejected gateway_timeout)
                  run_finished_meanwhile one_in_flight)).
Defined.

Lemma rejection_logged_not_rethrown_witness :
  rtc run (boot applying) finished_meanwhile /\
  0 < length (inflight finished_meanwhile) /\
  console (world (settle 0 (Rejected gateway_timeout) finished_meanwhile))
  = console (world finished_meanwhile) ++ [gateway_timeout].
Proof.
  split; [exact run_finished_meanwhile|]. split; [exact one_in_flight|].
  exact (proj1 (rejection_logged_not_rethrown applying finished_meanwhile 0
                  gateway_timeout run_finished_meanwhile one_in_flight)).
Defined.

Lemma action_cancelling_implies_state_witness :
  rtc run (boot applying) finished_meanwhile /\
  Forall in_step (published (world finished_meanwhile)).
Proof.
  split; [exact run_finished_meanwhile|].
  exact (proj1 (action_cancelling_implies_state applying finished_meanwhile
                  run_finished_meanwhile)).
Defined.

(** * Further properties of the component *)

(** ** Counting requests and console lines *)

Lemma requests_started (w : World) : requests (started w) = S (requests w).
Proof.
  unfold started, requests. cbn. rewrite omap_app, length_app. cbn. lia.
Qed.

Lemma console_started (w : World) : console (started w) = console w.
Proof.
  unfold started, console. cbn. rewrite omap_app. cbn. apply app_nil_r.
Qed.

Lemma sound_step (rt rt' : Runtime) : sound rt -> step rt rt' -> sound rt'.
Proof. intros Hs Hstep. exact (sound_run rt rt' Hs (run_step rt rt' Hstep)). Qed.

Lemma sound_overwrite (s : Store) (rt : Runtime) :
  sound rt -> sound (overwrite s rt).
Proof. intros Hs. exact (sound_run rt _ Hs (run_other rt s)). Qed.

(** After a transition of the component the store holds one of two
    values. *)
Lemma step_store (rt rt' : Runtime) :
  sound rt -> step rt rt' ->
  store (world rt') = {| state := EnumPlanState.Cancelling;
                         action := EnumPlanAction.Cancelling |}
  \/ store (world rt') = {| state := EnumPlanState.Cancelled;
                            action := EnumPlanAction.None |}.
Proof.
  intros [Hall _] Hstep. destruct Hstep as [rt | rt i o Hi].
  - left. started rt. reflexivity.
  - right. rewrite (settle_settled _ _ _ Hall Hi). reflexivity.
Qed.

(** X1: [cancel()] does not look for a request already in flight: [n] calls in
    a row send [n] requests and leave [n] more chains waiting. *)
Theorem repeated_cancel_sends_every_request (n : nat) (rt : Runtime) :
  requests (world (Nat.iter n invoke rt)) = n + requests (world rt) /\
  length (inflight (Nat.iter n invoke rt)) = n + length (inflight rt) /\
  console (world (Nat.iter n invoke rt)) = console (world rt) /\
  uncaught (Nat.iter n invoke rt) = uncaught rt.
Proof.
  induction n as [|n (IHr & IHi & IHc & IHu)]; [repeat split|].
  change (Nat.iter (S n) invoke rt) with (invoke (Nat.iter n invoke rt)).
  destruct (invoke_started (Nat.iter n invoke rt)) as (c & _ & ->).
  cbn [world inflight uncaught].
  rewrite requests_started, console_started, length_app, IHr, IHi, IHc, IHu.
  cbn. repeat split; lia.
Qed.

(** X2: however the page got where it is, the console holds at most one line
    for each request that has settled: console lines and requests in
    flight together never outnumber the requests sent. *)
Theorem console_bounded_by_settled_requests (s0 : Store) (rt : Runtime) :
  rtc run (boot s0) rt ->
  length (console (world rt)) + length (inflight rt) <= requests (world rt).
Proof.
  revert rt. apply rtc_ind_r; [cbn; lia|].
  intros y z Hy Hyz IH. destruct (sound_reachable _ _ Hy) as [Hall _].
  destruct Hyz as [rt rt' Hstep | rt s]; [destruct Hstep as [rt | rt i o Hi]|].
  - started rt. cbn [world inflight].
    rewrite requests_started, console_started, length_app. cbn. lia.
  - rewrite (settle_settled _ _ _ Hall Hi). cbn [world inflight].
    rewrite requests_settled, console_settled, length_app.
    rewrite (length_delete _ i) by (apply lookup_lt_is_Some_2, Hi).
    destruct o; cbn; lia.
  - exact IH.
Qed.

Lemma console_bounded_by_settled_requests_witness :
  rtc run (boot applying) finished_meanwhile /\
  length (console (world finished_meanwhile))
  + length (inflight finished_meanwhile)
  <= requests (world finished_meanwhile).
Proof.
  split; [exact run_finished_meanwhile|].
  exact (console_bounded_by_settled_requests applying finished_meanwhile
           run_finished_meanwhile).
Defined.

(** ** What a settlement does, in order *)

(** X3: when a request in flight settles, the continuation first writes the
    reason to the console if the request was rejected, then clears the
    action with the state still what it was, then sets the state to
    [Cancelled]; a fulfilment leaves the console as it is; the chain
    leaves the runtime and nothing escapes. *)
Theorem settlement_writes_in_order (s0 : Store) (rt : Runtime) (i : nat)
    (o : Settlement unit) :
  rtc run (boot s0) rt ->
  i < length (inflight rt) ->
  events (world (settle i o rt))
  = events (world rt)
    ++ match o with
       | Fulfilled _ => []
       | Rejected e => [ConsoleError e]
       end
    ++ [StoreSet {| state := state (store (world rt));
                    action := EnumPlanAction.None |};
        StoreSet {| state := EnumPlanState.Cancelled;
                    action := EnumPlanAction.None |}] /\
  console (world (settle i (Fulfilled tt) rt)) = console (world rt) /\
  inflight (settle i o rt) = delete i (inflight rt) /\
  uncaught (settle i o rt) = [].
Proof.
  intros Hrun Hi. destruct (sound_reachable _ _ Hrun) as [Hall Hun].
  rewrite !(settle_settled _ _ _ Hall Hi). cbn [world inflight uncaught].
  rewrite console_settled.
  split; [reflexivity|]. split; [apply app_nil_r|]. split; [reflexivity|].
  exact Hun.
Qed.

Lemma settlement_writes_in_order_witness :
  rtc run (boot applying) finished_meanwhile /\
  0 < length (inflight finished_meanwhile) /\
  console (world (settle 0 (Fulfilled tt) finished_meanwhile))
  = console (world finished_meanwhile).
Proof.
  split; [exact run_finished_meanwhile|]. split; [exact one_in_flight|].
  exact (proj1 (proj2 (settlement_writes_in_order applying finished_meanwhile
                         0 (Fulfilled tt)
                         run_finished_meanwhile one_in_flight))).
Defined.

(** ** The Cancel button and the trigger over time *)

(** X4: the Cancel button is in the panel exactly when the trigger has the
    in-progress colour. *)
Theorem cancel_trigger_iff_in_progress_colour (planState : PlanState) :
  is_Some (cancelTrigger planState)
  <-> getTriggerBgColor planState = "bg-secondary-500 text-light".
Proof.
  rewrite cancelTrigger_applying. split.
  - intros ->. reflexivity.
  - destruct planState; intros H; try reflexivity; discriminate H.
Qed.



Section ViewOverTime.

Context {Task : Type} (Models : Type).

(** X6: the trigger carries its fixed classes followed by the colour of the
    state: [clsx] drops neither, whatever the state. *)
Theorem trigger_class_has_colour (p : PlanProgress Task)
    (environment : Environment) (s : Store) :
  exists v,
    render Models (present p) environment s = Normal v /\
    trigger_className v
    = ("inline-block ml-1 px-2 py-[3px] rounded-[4px] text-xs font-bold "
       ++ getTriggerBgColor (state s))%string.
Proof.
  eexists. split; [apply render_present|]. cbn [trigger_className].
  destruct (state s); reflexivity.
Qed.

(** X7: the component shows nothing of the action: two stores with the same
    state render alike, and a write of the action alone changes nothing
    on the page. *)
Theorem view_ignores_action (plan : Nullable (PlanProgress Task))
    (environment : Environment) (s : Store) (a : PlanAction) (w : World) :
  render Models plan environment {| state := state s; action := a |}
  = render Models plan environment s /\
  render Models plan environment (store (snd (setPlanAction a w)))
  = render Models plan environment (store w).
Proof. split; reflexivity. Qed.

(** X9: with the store at [Applying] the view of a plan holds the Cancel
    button; one click on it and the next render has no Cancel button and
    a neutral trigger, with the request of the click in flight: the view
    offers no second click. *)
Theorem click_hides_cancel_trigger (p : PlanProgress Task)
    (environment : Environment) (rt : Runtime) :
  state (store (world rt)) = EnumPlanState.Applying ->
  exists v b v',
    render Models (present p) environment (store (world rt)) = Normal v /\
    panel_cancel v = Some b /\
    render Models (present p) environment (store (world (click b rt)))
    = Normal v' /\
    panel_cancel v' = None /\
    trigger_className v'
    = clsx ["inline-block ml-1 px-2 py-[3px] rounded-[4px] text-xs font-bold";
            "bg-neutral-100 text-neutral-500"] /\
    length (inflight (click b rt)) = S (length (inflight rt)) /\
    requests (world (click b rt)) = S (requests (world rt)).
Proof.
  intros H. rewrite render_present, H.
  destruct (cancelTrigger EnumPlanState.Applying) as [b|] eqn:Hb;
    [|discriminate Hb].
  assert (Hclick : click b rt = invoke rt).
  { unfold cancelTrigger in Hb. cbn in Hb. injection Hb as <-. reflexivity. }
  eexists _, b, _. split; [reflexivity|]. split; [reflexivity|].
  rewrite Hclick. started rt. cbn [world inflight].
  rewrite render_present, requests_started, length_app.
  split; [reflexivity|]. cbn. repeat split; lia.
Qed.

(** X10: once [cancel()] has run, no sequence of calls of [cancel()] and
    settlements, whatever their outcomes, brings the Cancel button back or
    gives the trigger a colour other than the neutral one. *)
Theorem cancel_trigger_never_returns (s0 : Store) (rt rt' : Runtime)
    (p : PlanProgress Task) (environment : Environment) :
  rtc run (boot s0) rt ->
  rtc step (invoke rt) rt' ->
  exists v,
    render Models (present p) environment (store (world rt')) = Normal v /\
    panel_cancel v = None /\
    trigger_className v
    = clsx ["inline-block ml-1 px-2 py-[3px] rounded-[4px] text-xs font-bold";
            "bg-neutral-100 text-neutral-500"].
Proof.
  intros Hrun Hsteps.
  assert (Hinv : sound rt' /\
    (store (world rt') = {| state := EnumPlanState.Cancelling;
                            action := EnumPlanAction.Cancelling |}
     \/ store (world rt') = {| state := EnumPlanState.Cancelled;
                               action := EnumPlanAction.None |})).
  { pose proof (sound_reachable _ _ Hrun) as Hs.
    revert rt' Hsteps. apply rtc_ind_r.
    - split; [exact (sound_step _ _ Hs (step_invoke rt))|].
      exact (step_store _ _ Hs (step_invoke rt)).
    - intros y z _ Hyz [Hy _].
      split; [exact (sound_step _ _ Hy Hyz) | exact (step_store _ _ Hy Hyz)]. }
  destruct Hinv as [_ [E | E]]; rewrite render_present, E;
    eexists; (split; [reflexivity|]); split; reflexivity.
Qed.

(** X11: a settlement that comes in after the store was set back to
    [Applying], as when another plan has started, finds the Cancel button
    of that plan on the page, sets the state to [Cancelled] with the
    action [None], and so takes the button away. *)
Theorem stale_settlement_hides_new_cancel (s0 : Store) (rt : Runtime)
    (i : nat) (o : Settlement unit) (a : PlanAction)
    (p : PlanProgress Task) (environment : Environment) :
  rtc run (boot s0) rt ->
  i < length (inflight rt) ->
  let restarted :=
    overwrite {| state := EnumPlanState.Applying; action := a |} rt in
  exists v b v',
    render Models (present p) environment (store (world restarted))
    = Normal v /\
    panel_cancel v = Some b /\
    button_children b = "Cancel" /\
    click b restarted = invoke restarted /\
    store (world (settle i o restarted))
    = {| state := EnumPlanState.Cancelled; action := EnumPlanAction.None |} /\
    render Models (present p) environment
      (store (world (settle i o restarted)))
    = Normal v' /\
    panel_cancel v' = None.
Proof.
  intros Hrun Hi restarted.
  destruct (sound_overwrite {| state := EnumPlanState.Applying; action := a |}
              rt (sound_reachable _ _ Hrun)) as [Hall _].
  fold restarted in Hall.
  assert (Hi' : i < length (inflight restarted)) by exact Hi.
  rewrite (settle_settled _ _ _ Hall Hi'), !render_present.
  do 3 eexists. split; [reflexivity|]. split; [reflexivity|].
  repeat split.
Qed.

End ViewOverTime.

Lemma click_hides_cancel_trigger_witness :
  state (store (world (boot applying))) = EnumPlanState.Applying /\
  exists v b v',
    render unit (present (mkPlanProgress EnumPlanApplyType.Backfill
                            "2023-03-01" ["model_a"; "model_b"]))
      {| name := "prod" |} (store (world (boot applying))) = Normal v /\
    panel_cancel v = Some b /\
    render unit (present (mkPlanProgress EnumPlanApplyType.Backfill
                            "2023-03-01" ["model_a"; "model_b"]))
      {| name := "prod" |} (store (world (click b (boot applying))))
    = Normal v' /\
    panel_cancel v' = None.
Proof.
  split; [reflexivity|].
  destruct (click_hides_cancel_trigger unit
              (mkPlanProgress EnumPlanApplyType.Backfill
                 "2023-03-01" ["model_a"; "model_b"])
              {| name := "prod" |} (boot applying) eq_refl)
    as (v & b & v' & H1 & H2 & H3 & H4 & _).
  exists v, b, v'. repeat split; assumption.
Defined.

Lemma cancel_trigger_never_returns_witness :
  rtc run (boot applying) finished_meanwhile /\
  rtc step (invoke finished_meanwhile)
    (settle 1 (Rejected gateway_timeout) (invoke finished_meanwhile)) /\
  exists v,
    render unit (present (mkPlanProgress EnumPlanApplyType.Virtual
                            "2023-03-01" ["model_a"]))
      {| name := "prod" |}
      (store (world (settle 1 (Rejected gateway_timeout)
                       (invoke finished_meanwhile))))
    = Normal v /\
    panel_cancel v = None.
Proof.
  assert (Hsteps : rtc step (invoke finished_meanwhile)
            (settle 1 (Rejected gateway_timeout) (invoke finished_meanwhile))).
  { apply rtc_once, step_settle. exact (le_n 2). }
  split; [exact run_finished_meanwhile|]. split; [exact Hsteps|].
  destruct (cancel_trigger_never_returns unit applying finished_meanwhile _
              (mkPlanProgress EnumPlanApplyType.Virtual "2023-03-01" ["model_a"])
              {| name := "prod" |} run_finished_meanwhile Hsteps)
    as (v & H1 & H2 & _).
  exists v. split; assumption.
Defined.

Lemma stale_settlement_hides_new_cancel_witness :
  rtc run (boot applying) finished_meanwhile /\
  0 < length (inflight finished_meanwhile) /\
  store (world (settle 0 (Fulfilled tt)
                  (overwrite applying finished_meanwhile)))
  = {| state := EnumPlanState.Cancelled; action := EnumPlanAction.None |}.
Proof.
  split; [exact run_finished_meanwhile|]. split; [exact one_in_flight|].
  destruct (stale_settlement_hides_new_cancel unit applying finished_meanwhile
              0 (Fulfilled tt) EnumPlanAction.None
              (mkPlanProgress EnumPlanApplyType.Backfill "2023-03-02"
                 ["model_c"])
              {| name := "dev" |} run_finished_meanwhile one_in_flight)
    as (v & b & v' & _ & _ & _ & _ & H & _).
  exact H.
Defined.
